(** * Rigid pavement design (AASHTO 93): the calculators of [test1.py]

    A shallow embedding of [src/test1.py] and the properties its specification
    states about it.

    Numbers.  Python's [int] and [float] values are idealised as real numbers
    ([R]): every finite number is a real, and the arithmetic is exact.  What is
    kept of Python is everything that decides *whether* and *what kind of*
    result an operation gives: [**] on a zero or negative base, division by
    zero, [math.log10] and [math.sqrt] outside their domain, [round] on a
    complex number, subscripting and formatting of values that do not support
    it.  Outside the model: the rounding error of binary64 arithmetic, overflow,
    and the non-finite values [inf] and [nan].

    Output.  Every [print] of the source is one constructor of [line]; a number
    interpolated with [:.2f] is carried already rounded to two decimals. *)

From Stdlib Require Import Reals Lra Lia ZArith.
From stdpp Require Import base strings gmap.

Set Warnings "-register-all".
Open Scope R_scope.

(** ** Values, exceptions and printed lines *)

(** What [json.load] can return (numbers are finite, see above). *)
Inductive value :=
  | PNone
  | PBool (b : bool)
  | PNum (x : R)
  | PStr (s : string)
  | PList (l : list value)
  | PDict (d : gmap string value).

(** A numeric result inside a calculator: [float], or the [complex] that [**]
    produces for a negative base and a fractional exponent. *)
Inductive num :=
  | Float (x : R)
  | Complex (re im : R).

(** The exceptions the program can raise.  All but the first two reach the
    [except Exception] clause of [main]. *)
Inductive exn :=
  | FileNotFoundError (archivo cwd : string)
  | KeyError (key : string)
  | TypeError
  | ValueError
  | ZeroDivisionError.

(** One constructor per [print] statement, in the order of the source. *)
Inductive line :=
  | MrsgTitulo                    (* l.23 "Calculando MRSG ..." *)
  | CbrIngresado (cbr : R)        (* l.24 "CBR ingresado: {CBR:.2f}%" *)
  | MrsgCalculado (mrsg : num)    (* l.26 "MRSG calculado: {MRSG:.2f} psi" *)
  | KTitulo                       (* l.37 "Calculando K-Value ..." *)
  | KSubgrade (k : R)             (* l.41 "K-Value de subgrade: {:.2f} psi/in" *)
  | KBase (k : num)               (* l.42 "K-Value adicional de base granular: {:.2f} psi/in" *)
  | KTotal (k : num)              (* l.43 "K-Value total de subestructura: {:.2f} psi/in" *)
  | EspesorTitulo                 (* l.59 "Calculando espesor de losa rigida..." *)
  | EspesorCalculado (e : num)    (* l.72 "Espesor calculado de losa: {:.2f} pulgadas" *)
  | Leyendo (archivo : string)    (* l.78 "Leyendo datos desde el archivo: ..." *)
  | ResultadosFinales             (* l.104 "RESULTADOS FINALES:" *)
  | FinalCbr (cbr : value)        (* l.105 "CBR ingresado: {CBR}%" *)
  | FinalMrsg (mrsg : R)          (* l.106 *)
  | FinalK (k : R)                (* l.107 *)
  | FinalEspesor (e : R)          (* l.108 *)
  | Excepcion (e : exn)           (* l.111 print(e) *)
  | Asegurese                     (* l.112 "Asegurese de que el archivo ..." *)
  | ClaveFaltante (e : exn)       (* l.114 "Error: Clave faltante ... - {e}" *)
  | ErrorInesperado (e : exn).    (* l.116 "Ocurrio un error inesperado: {e}" *)

(** ** The monad of the program: printed lines, then a value or an exception *)

Inductive result (A : Type) :=
  | Return (a : A)
  | Raise (e : exn).
Arguments Return {A} a.
Arguments Raise {A} e.

Definition M (A : Type) : Type := (list line * result A)%type.

#[global] Instance M_ret : MRet M := λ A a, ([], Return a).

#[global] Instance M_bind : MBind M := λ A B f c,
  match c with
  | (out, Return a) => let '(out', r) := f a in (out ++ out', r)
  | (out, Raise e) => (out, Raise e)
  end.

Definition print (l : line) : M unit := ([l], Return tt).
Definition raise {A : Type} (e : exn) : M A := ([], Raise e).

(** ** Python's numeric operations on finite numbers *)

(** [bool] is a subclass of [int]: [True] counts as 1. *)
Definition as_real (v : value) : option R :=
  match v with
  | PNum x => Some x
  | PBool b => Some (if b then 1 else 0)
  | _ => None
  end.

(** An arithmetic operand: anything that is not a number raises [TypeError]. *)
Definition operand (v : value) : M R :=
  match as_real v with
  | Some x => mret x
  | None => raise TypeError
  end.

(** Round half to even, as [round(x, 2)] and [format(x, '.2f')] do. *)
Definition round_half_even (x : R) : Z :=
  let n := Zfloor x in
  if Rlt_dec (x - IZR n) (1 / 2) then n
  else if Rlt_dec (1 / 2) (x - IZR n) then (n + 1)%Z
  else if Z.even n then n else (n + 1)%Z.

Definition round2 (x : R) : R := IZR (round_half_even (x * 100)) / 100.

(** [f"{v:.2f}"] on a loaded value. *)
Definition format_2f (v : value) : M R :=
  match v with
  | PStr _ => raise ValueError
  | _ => match as_real v with
         | Some x => mret (round2 x)
         | None => raise TypeError
         end
  end.

(** [f"{n:.2f}"] on a numeric result: [complex] supports the format too. *)
Definition fmt2 (n : num) : num :=
  match n with
  | Float x => Float (round2 x)
  | Complex re im => Complex (round2 re) (round2 im)
  end.

(** [round(n, 2)]: [complex] does not define [__round__]. *)
Definition py_round2 (n : num) : M R :=
  match n with
  | Float x => mret (round2 x)
  | Complex _ _ => raise TypeError
  end.

(** [x ** y] on floats. *)
Definition float_pow (x y : R) : M num :=
  if Req_dec_T x 0 then
    if Rlt_dec y 0 then raise ZeroDivisionError
    else if Req_dec_T y 0 then mret (Float 1)
    else mret (Float 0)
  else if Rlt_dec 0 x then mret (Float (Rpower x y))
  else if Req_dec_T (IZR (Zfloor y)) y then mret (Float (powerRZ x (Zfloor y)))
  else mret (Complex (Rpower (- x) y * cos (PI * y))
                     (Rpower (- x) y * sin (PI * y))).

(** [v ** y] on a loaded value. *)
Definition pow_value (v : value) (y : R) : M num :=
  x ← operand v; float_pow x y.

(** [a * n], [a + n] and [a / n] for a float [a]. *)
Definition mul_num (a : R) (n : num) : num :=
  match n with
  | Float x => Float (a * x)
  | Complex re im => Complex (a * re) (a * im)
  end.

Definition add_num (a : R) (n : num) : num :=
  match n with
  | Float x => Float (a + x)
  | Complex re im => Complex (a + re) im
  end.

Definition float_div (a b : R) : M R :=
  if Req_dec_T b 0 then raise ZeroDivisionError else mret (a / b).

Definition div_num (a : R) (n : num) : M num :=
  match n with
  | Float b => q ← float_div a b; mret (Float q)
  | Complex c d =>
      if Req_dec_T (c * c + d * d) 0 then raise ZeroDivisionError
      else mret (Complex (a * c / (c * c + d * d)) (- (a * d) / (c * c + d * d)))
  end.

(** [math.log10] and [math.sqrt]. *)
Definition log10 (x : R) : R := ln x / ln 10.

Definition math_log10 (x : R) : M R :=
  if Rlt_dec 0 x then mret (log10 x) else raise ValueError.

Definition math_sqrt (n : num) : M R :=
  match n with
  | Float x => if Rlt_dec x 0 then raise ValueError else mret (sqrt x)
  | Complex _ _ => raise TypeError
  end.

(** ** The three calculators *)

(** Arguments that [main] reads from the input file are [value]s; those it
    passes as float constants ([ZR], [So], [Cd], [delta_PSI]) or as the float
    a previous stage returned ([MRSG], [k]) are reals. *)

(** l.17-27 *)
Definition calcular_mrsg_subgrade (CBR : value) : M R :=
  print MrsgTitulo;;
  c ← format_2f CBR;
  print (CbrIngresado c);;
  p ← pow_value CBR 0.684;
  let MRSG := mul_num 1945 p in
  print (MrsgCalculado (fmt2 MRSG));;
  py_round2 MRSG.

(** l.29-44; in [resilient_modulus_base / (espesor_base ** 0.5)] the power is
    evaluated before the division looks at its left operand. *)
Definition calcular_k_subestructura_psi_in
    (MRSG : R) (resilient_modulus_base espesor_base : value) : M R :=
  print KTitulo;;
  let k_subgrade_psi_in := MRSG / 10 in
  raiz ← pow_value espesor_base 0.5;
  rmb ← operand resilient_modulus_base;
  k_base_psi_in ← div_num rmb raiz;
  let k_total_psi_in := add_num k_subgrade_psi_in k_base_psi_in in
  print (KSubgrade (round2 k_subgrade_psi_in));;
  print (KBase (fmt2 k_base_psi_in));;
  print (KTotal (fmt2 k_total_psi_in));;
  py_round2 k_total_psi_in.

(** [for _ in range(n): x = cuerpo] *)
Fixpoint repetir (n : nat) (cuerpo : num → M num) (x : num) : M num :=
  match n with
  | O => mret x
  | S n' => x' ← cuerpo x; repetir n' cuerpo x'
  end.

(** l.46-73: the solver, with its initial guess and its number of repetitions
    as parameters; the source fixes them to 7.0 and 10.  [Ec] is not used. *)
Definition calcular_espesor_losa_rigida_desde
    (espesor_0 : R) (repeticiones : nat)
    (ESALs : value) (ZR So : R) (Sc : value) (Cd : R) (Ec : value)
    (k delta_PSI : R) : M R :=
  print EspesorTitulo;;
  let A := ZR * So in
  e ← operand ESALs;
  l1 ← math_log10 (e + 1);
  let B := 7.35 * l1 - 0.06 in
  sc ← operand Sc;
  kp ← float_pow k 0.25;
  C ← div_num (sc * Cd) kp;
  l0 ← math_log10 e;
  let D1 := (4.22 - 0.32 * delta_PSI) * l0 in
  r ← math_sqrt C;
  let D2 := 215.63 * r - 18.42 in
  espesor ← repetir repeticiones
    (λ _, q ← float_div (A + B) (D1 + D2); float_pow q (1 / 1.132))
    (Float espesor_0);
  print (EspesorCalculado (fmt2 espesor));;
  py_round2 espesor.

Definition calcular_espesor_losa_rigida :=
  calcular_espesor_losa_rigida_desde 7 10.

(** ** The driver *)

(** What the file system holds under a name: text that [json.load] rejects, or
    the value it returns. *)
Inductive contenido :=
  | Malformado
  | Json (datos : value).

Record entorno := {
  cwd : string;
  archivos : gmap string contenido
}.

(** l.5-15 *)
Definition leer_datos_entrada (env : entorno) (archivo : string) : M value :=
  match archivos env !! archivo with
  | None => raise (FileNotFoundError archivo (cwd env))
  | Some Malformado => raise ValueError
  | Some (Json datos) => mret datos
  end.

(** [v[key]] for a string key. *)
Definition subscript (v : value) (key : string) : M value :=
  match v with
  | PDict d =>
      match d !! key with
      | Some x => mret x
      | None => raise (KeyError key)
      end
  | _ => raise TypeError
  end.

(** [datos[seccion][clave]] *)
Definition campo (datos : value) (seccion clave : string) : M value :=
  s ← subscript datos seccion; subscript s clave.

Definition archivo_entrada : string := "datos_entrada.json".

(** l.82-108: the body of the [try] block of [main]. *)
Definition main_try (env : entorno) : M unit :=
  datos ← leer_datos_entrada env archivo_entrada;
  ESALs ← campo datos "Traffic" "ESALs";
  let ZR := -1.645 in
  let So := 0.39 in
  Sc ← campo datos "Concrete" "FlexuralStrength";
  let Cd := 1 in
  Ec ← campo datos "Concrete" "ModulusOfElasticity";
  CBR ← campo datos "Subgrade" "CBR";
  let delta_PSI := 2 in
  resilient_modulus_base ← campo datos "Structure" "ResilientModulus";
  espesor_base ← campo datos "Structure" "LayerThickness";
  MRSG ← calcular_mrsg_subgrade CBR;
  k_total_psi_in ←
    calcular_k_subestructura_psi_in MRSG resilient_modulus_base espesor_base;
  espesor_losa ←
    calcular_espesor_losa_rigida ESALs ZR So Sc Cd Ec k_total_psi_in delta_PSI;
  print ResultadosFinales;;
  print (FinalCbr CBR);;
  print (FinalMrsg MRSG);;
  print (FinalK k_total_psi_in);;
  print (FinalEspesor espesor_losa).

(** l.110-116: the [except] clauses, in the order of the source. *)
Definition main_except (e : exn) : list line :=
  match e with
  | FileNotFoundError _ _ => [Excepcion e; Asegurese]
  | KeyError _ => [ClaveFaltante e]
  | _ => [ErrorInesperado e]
  end.

(** [main()]: everything it prints. *)
Definition main (env : entorno) : list line :=
  Leyendo archivo_entrada ::
  match main_try env with
  | (out, Return _) => out
  | (out, Raise e) => out ++ main_except e
  end.

(** ** Definitions the statements use *)

(** What one round of the loop computes. *)
Definition una_evaluacion (AB D : R) : M num :=
  q ← float_div AB D; float_pow q (1 / 1.132).

(** [x ** y] for a base that is not negative and a positive exponent, as a
    real number: [0 ** y] is 0. *)
Definition potencia (x y : R) : R :=
  if Req_dec_T x 0 then 0 else Rpower x y.

(** The slab thickness as the specification writes it: the design equation
    evaluated once, without a loop and without an initial guess. *)
Definition espesor_formula (ESALs ZR So Sc Cd k delta_PSI : R) : R :=
  let A := ZR * So in
  let B := 7.35 * log10 (ESALs + 1) - 0.06 in
  let C := (Sc * Cd) / potencia k 0.25 in
  let D1 := (4.22 - 0.32 * delta_PSI) * log10 ESALs in
  let D2 := 215.63 * sqrt C - 18.42 in
  round2 (potencia ((A + B) / (D1 + D2)) (1 / 1.132)).

(** The two terms of the quotient, as [espesor_formula] has them. *)
Definition termino_AB (ESALs ZR So : R) : R :=
  ZR * So + (7.35 * log10 (ESALs + 1) - 0.06).

Definition termino_D (ESALs Sc Cd k delta_PSI : R) : R :=
  (4.22 - 0.32 * delta_PSI) * log10 ESALs +
  (215.63 * sqrt (Sc * Cd / potencia k 0.25) - 18.42).

(** The calculation stages of [main] and its final report, once the six
    fields have been read. *)
Definition etapas (ESALs Sc Ec CBR resilient_modulus_base espesor_base : value)
    : M unit :=
  MRSG ← calcular_mrsg_subgrade CBR;
  k_total_psi_in ←
    calcular_k_subestructura_psi_in MRSG resilient_modulus_base espesor_base;
  espesor_losa ←
    calcular_espesor_losa_rigida ESALs (-1.645) 0.39 Sc 1 Ec k_total_psi_in 2;
  print ResultadosFinales;;
  print (FinalCbr CBR);;
  print (FinalMrsg MRSG);;
  print (FinalK k_total_psi_in);;
  print (FinalEspesor espesor_losa).

(** The file exists, parses, and holds the six fields. *)
Record entrada (datos : value)
    (ESALs Sc Ec CBR resilient_modulus_base espesor_base : value) : Prop := {
  entrada_ESALs : campo datos "Traffic" "ESALs" = mret ESALs;
  entrada_Sc : campo datos "Concrete" "FlexuralStrength" = mret Sc;
  entrada_Ec : campo datos "Concrete" "ModulusOfElasticity" = mret Ec;
  entrada_CBR : campo datos "Subgrade" "CBR" = mret CBR;
  entrada_rmb :
    campo datos "Structure" "ResilientModulus" = mret resilient_modulus_base;
  entrada_eb : campo datos "Structure" "LayerThickness" = mret espesor_base
}.

(** The input of the worked example. *)
Definition datos_ejemplo : value :=
  PDict {[ "Traffic" := PDict {[ "ESALs" := PNum 1000000 ]};
           "Concrete" := PDict {[ "FlexuralStrength" := PNum 650;
                                  "ModulusOfElasticity" := PNum 4000000 ]};
           "Subgrade" := PDict {[ "CBR" := PNum 8 ]};
           "Structure" := PDict {[ "ResilientModulus" := PNum 30000;
                                   "LayerThickness" := PNum 6 ]} ]}.

Definition entorno_ejemplo : entorno :=
  {| cwd := "/home/usuario";
     archivos := {[ archivo_entrada := Json datos_ejemplo ]} |}.

(** The thickness the worked example ends with. *)
Definition espesor_ejemplo : R :=
  espesor_formula 1000000 (-1.645) 0.39 650 1 13054 2.


(** The worked example without its ["Subgrade"] object. *)
Definition datos_sin_subgrade : value :=
  PDict {[ "Traffic" := PDict {[ "ESALs" := PNum 1000000 ]};
           "Concrete" := PDict {[ "FlexuralStrength" := PNum 650;
                                  "ModulusOfElasticity" := PNum 4000000 ]};
           "Structure" := PDict {[ "ResilientModulus" := PNum 30000;
                                   "LayerThickness" := PNum 6 ]} ]}.

Definition entorno_sin_subgrade : entorno :=
  {| cwd := "/home/usuario";
     archivos := {[ archivo_entrada := Json datos_sin_subgrade ]} |}.


(** The six fields [main] reads, in the order of l.85-94. *)
Definition campos_requeridos : list (string * string) :=
  [("Traffic", "ESALs"); ("Concrete", "FlexuralStrength");
   ("Concrete", "ModulusOfElasticity"); ("Subgrade", "CBR");
   ("Structure", "ResilientModulus"); ("Structure", "LayerThickness")].

(** The lines that the three calculators print. *)
Definition es_linea_de_etapa (l : line) : bool :=
  match l with
  | MrsgTitulo | CbrIngresado _ | MrsgCalculado _
  | KTitulo | KSubgrade _ | KBase _ | KTotal _
  | EspesorTitulo | EspesorCalculado _ => true
  | _ => false
  end.

(** The final report of [main], l.104-108. *)
Definition informe_final (CBR : value) (MRSG k espesor : R) : list line :=
  [ResultadosFinales; FinalCbr CBR; FinalMrsg MRSG; FinalK k;
   FinalEspesor espesor].

(** The worked example with a string where the modulus of elasticity is
    expected. *)
Definition datos_sin_modulo : value :=
  PDict {[ "Traffic" := PDict {[ "ESALs" := PNum 1000000 ]};
           "Concrete" := PDict {[ "FlexuralStrength" := PNum 650;
                                  "ModulusOfElasticity" := PStr "desconocido" ]};
           "Subgrade" := PDict {[ "CBR" := PNum 8 ]};
           "Structure" := PDict {[ "ResilientModulus" := PNum 30000;
                                   "LayerThickness" := PNum 6 ]} ]}.

Definition entorno_sin_modulo : entorno :=
  {| cwd := "/home/usuario";
     archivos := {[ archivo_entrada := Json datos_sin_modulo ]} |}.

(** No input file, and an input file holding the empty object. *)
Definition entorno_vacio : entorno :=
  {| cwd := "/home/usuario"; archivos := ∅ |}.

Definition entorno_objeto_vacio : entorno :=
  {| cwd := "/home/usuario";
     archivos := {[ archivo_entrada := Json (PDict ∅) ]} |}.


(** ** Running the monad *)

Lemma bind_ret {A B : Type} (a : A) (f : A → M B) : (mret a ≫= f) = f a.
Proof. unfold mret, M_ret, mbind, M_bind. destruct (f a). reflexivity. Qed.

Lemma bind_raise {A B : Type} (e : exn) (f : A → M B) :
  (raise e ≫= f) = raise e.
Proof. reflexivity. Qed.

Lemma bind_ext {A B : Type} (c : M A) (f g : A → M B) :
  (∀ a, f a = g a) → (c ≫= f) = (c ≫= g).
Proof.
  intros H. destruct c as [out [a|e]]; [|reflexivity].
  unfold mbind, M_bind. rewrite H. reflexivity.
Qed.

Ltac run :=
  cbn [mbind M_bind mret M_ret print raise operand as_real format_2f pow_value
       fmt2 mul_num add_num py_round2 app fst snd].

Ltac raised := let H := fresh in run; intros H; discriminate H.

Lemma bind_assoc {A B C : Type} (c : M A) (f : A → M B) (g : B → M C) :
  ((c ≫= f) ≫= g) = (c ≫= λ a, f a ≫= g).
Proof.
  destruct c as [out [a|e]]; [|reflexivity].
  unfold mbind, M_bind. destruct (f a) as [out1 [b|e1]]; [|reflexivity].
  destruct (g b) as [out2 r]. rewrite app_assoc. reflexivity.
Qed.

(** ** Facts on [float_pow] *)

Lemma float_pow_pos (x y : R) : 0 < x → float_pow x y = mret (Float (Rpower x y)).
Proof.
  intros Hx. unfold float_pow.
  destruct (Req_dec_T x 0) as [E|_]; [lra|].
  destruct (Rlt_dec 0 x); [reflexivity|lra].
Qed.

Lemma float_pow_zero (y : R) : 0 < y → float_pow 0 y = mret (Float 0).
Proof.
  intros Hy. unfold float_pow.
  destruct (Req_dec_T 0 0) as [_|N]; [|lra].
  destruct (Rlt_dec y 0); [lra|].
  destruct (Req_dec_T y 0); [lra|reflexivity].
Qed.

Lemma Zfloor_frac (a : Z) (y : R) :
  IZR a < y < IZR a + 1 → IZR (Zfloor y) ≠ y.
Proof.
  intros [H1 H2] E.
  assert (Zfloor y = a) as Ha by (apply Zfloor_eq; lra).
  rewrite Ha in E. lra.
Qed.

Lemma float_pow_neg (x y : R) (a : Z) :
  x < 0 → IZR a < y < IZR a + 1 →
  float_pow x y = mret (Complex (Rpower (- x) y * cos (PI * y))
                               (Rpower (- x) y * sin (PI * y))).
Proof.
  intros Hx Hy. unfold float_pow.
  destruct (Req_dec_T x 0); [lra|].
  destruct (Rlt_dec 0 x); [lra|].
  destruct (Req_dec_T (IZR (Zfloor y)) y) as [E|_]; [|reflexivity].
  exfalso. exact (Zfloor_frac a y Hy E).
Qed.

Lemma Rpower_half (x : R) : 0 < x → Rpower x 0.5 = sqrt x.
Proof.
  intros H. replace 0.5 with (/ 2) by lra. apply Rpower_sqrt, H.
Qed.

(** The complex power of a negative base is never zero. *)
Lemma polar_nonzero (r t : R) :
  0 < r → (r * cos t) * (r * cos t) + (r * sin t) * (r * sin t) ≠ 0.
Proof.
  intros Hr. pose proof (sin2_cos2 t) as H. unfold Rsqr in H.
  replace (r * cos t * (r * cos t) + r * sin t * (r * sin t))
    with (r * r * (sin t * sin t + cos t * cos t)) by ring.
  rewrite H. nra.
Qed.

(** ** Facts on the other operations *)

Lemma potencia_pos (x y : R) : 0 < x → potencia x y = Rpower x y.
Proof. intros H. unfold potencia. destruct (Req_dec_T x 0); [lra|reflexivity]. Qed.

Lemma float_pow_nonneg (x y : R) :
  0 <= x → 0 < y → float_pow x y = mret (Float (potencia x y)).
Proof.
  intros [Hx | <-] Hy.
  - rewrite float_pow_pos, potencia_pos by assumption. reflexivity.
  - rewrite float_pow_zero by assumption. unfold potencia.
    destruct (Req_dec_T 0 0); [reflexivity|lra].
Qed.

Lemma math_log10_pos (x : R) : 0 < x → math_log10 x = mret (log10 x).
Proof. intros H. unfold math_log10. destruct (Rlt_dec 0 x); [reflexivity|lra]. Qed.

Lemma math_log10_nonpos (x : R) : x <= 0 → math_log10 x = raise ValueError.
Proof. intros H. unfold math_log10. destruct (Rlt_dec 0 x); [lra|reflexivity]. Qed.

Lemma float_div_nonzero (a b : R) : b ≠ 0 → float_div a b = mret (a / b).
Proof. intros H. unfold float_div. destruct (Req_dec_T b 0); [lra|reflexivity]. Qed.

Lemma float_div_zero (a : R) : float_div a 0 = raise ZeroDivisionError.
Proof. unfold float_div. destruct (Req_dec_T 0 0); [reflexivity|lra]. Qed.

Lemma div_num_float (a b : R) : b ≠ 0 → div_num a (Float b) = mret (Float (a / b)).
Proof. intros H. unfold div_num. rewrite float_div_nonzero by exact H. reflexivity. Qed.

Lemma div_num_zero (a : R) : div_num a (Float 0) = raise ZeroDivisionError.
Proof. unfold div_num. rewrite float_div_zero. reflexivity. Qed.

Lemma div_num_polar (a r t : R) :
  0 < r → ∃ c, div_num a (Complex (r * cos t) (r * sin t)) = mret c
               ∧ ∃ re im, c = Complex re im.
Proof.
  intros Hr. unfold div_num. destruct (Req_dec_T _ 0) as [E|_].
  - exfalso. revert E. apply polar_nonzero, Hr.
  - eexists. split; [reflexivity|]. eauto.
Qed.

Lemma math_sqrt_nonneg (x : R) : 0 <= x → math_sqrt (Float x) = mret (sqrt x).
Proof. intros H. unfold math_sqrt. destruct (Rlt_dec x 0); [lra|reflexivity]. Qed.

Lemma math_sqrt_neg (x : R) : x < 0 → math_sqrt (Float x) = raise ValueError.
Proof. intros H. unfold math_sqrt. destruct (Rlt_dec x 0); [reflexivity|lra]. Qed.

Lemma Rpower_pos (x y : R) : 0 < Rpower x y.
Proof. apply exp_pos. Qed.

(** ** Facts on rounding *)

Lemma round_half_even_eq (x : R) (n : Z) :
  IZR n - 1 / 2 < x < IZR n + 1 / 2 → round_half_even x = n.
Proof.
  intros [Hlo Hhi]. unfold round_half_even.
  pose proof (Zfloor_bound x) as [Hf1 Hf2].
  assert (Zfloor x = n ∨ Zfloor x = (n - 1)%Z) as [E|E].
  { assert (n - 1 <= Zfloor x)%Z.
    { apply Zfloor_lub. rewrite minus_IZR. lra. }
    assert (Zfloor x < n + 1)%Z.
    { apply lt_IZR. rewrite plus_IZR. lra. }
    lia. }
  - rewrite E. destruct (Rlt_dec (x - IZR n) (1 / 2)); [reflexivity|lra].
  - rewrite E in *. rewrite minus_IZR in *.
    destruct (Rlt_dec (x - (IZR n - 1)) (1 / 2)); [lra|].
    destruct (Rlt_dec (1 / 2) (x - (IZR n - 1))); [lia|lra].
Qed.

Lemma round2_eq (x : R) (n : Z) :
  IZR n - 1 / 2 < x * 100 < IZR n + 1 / 2 → round2 x = IZR n / 100.
Proof. intros H. unfold round2. rewrite (round_half_even_eq _ n H). reflexivity. Qed.

Lemma round_half_even_bounds (x : R) :
  (Zfloor x <= round_half_even x <= Zfloor x + 1)%Z.
Proof.
  unfold round_half_even.
  destruct (Rlt_dec _ _); [lia|].
  destruct (Rlt_dec _ _); [lia|].
  destruct (Z.even _); lia.
Qed.

Lemma round_half_even_mono (x y : R) :
  x <= y → (round_half_even x <= round_half_even y)%Z.
Proof.
  intros Hxy.
  pose proof (Zfloor_le x y Hxy) as Hfl.
  destruct (Z.eq_dec (Zfloor x) (Zfloor y)) as [E|N].
  - unfold round_half_even. rewrite E.
    destruct (Rlt_dec (x - IZR (Zfloor y)) (1 / 2)) as [Hx|Hx].
    + destruct (Rlt_dec (y - IZR (Zfloor y)) (1 / 2)); [lia|].
      destruct (Rlt_dec (1 / 2) (y - IZR (Zfloor y))); [lia|].
      destruct (Z.even (Zfloor y)); lia.
    + destruct (Rlt_dec (y - IZR (Zfloor y)) (1 / 2)) as [Hy|Hy]; [lra|].
      destruct (Rlt_dec (1 / 2) (x - IZR (Zfloor y))) as [Hx'|Hx'].
      * destruct (Rlt_dec (1 / 2) (y - IZR (Zfloor y))); [lia|lra].
      * destruct (Rlt_dec (1 / 2) (y - IZR (Zfloor y))); [|lia].
        destruct (Z.even (Zfloor y)); lia.
  - pose proof (round_half_even_bounds x). pose proof (round_half_even_bounds y).
    lia.
Qed.

Lemma round2_mono (x y : R) : x <= y → round2 x <= round2 y.
Proof.
  intros H. unfold round2.
  assert (IZR (round_half_even (x * 100)) <= IZR (round_half_even (y * 100))).
  { apply IZR_le, round_half_even_mono. lra. }
  lra.
Qed.


(** ** The first two calculators on their domain *)

Lemma calcular_mrsg_subgrade_run (CBR : R) :
  0 < CBR →
  calcular_mrsg_subgrade (PNum CBR) =
    ([MrsgTitulo; CbrIngresado (round2 CBR);
      MrsgCalculado (Float (round2 (1945 * Rpower CBR 0.684)))],
     Return (round2 (1945 * Rpower CBR 0.684))).
Proof.
  intros H. unfold calcular_mrsg_subgrade. run.
  rewrite (float_pow_pos _ _ H). reflexivity.
Qed.

Lemma calcular_k_subestructura_run (MRSG RM LT : R) :
  0 < LT →
  calcular_k_subestructura_psi_in MRSG (PNum RM) (PNum LT) =
    ([KTitulo; KSubgrade (round2 (MRSG / 10));
      KBase (Float (round2 (RM / sqrt LT)));
      KTotal (Float (round2 (MRSG / 10 + RM / sqrt LT)))],
     Return (round2 (MRSG / 10 + RM / sqrt LT))).
Proof.
  intros H. unfold calcular_k_subestructura_psi_in. run.
  rewrite (float_pow_pos _ _ H), (Rpower_half _ H). run.
  unfold div_num, float_div.
  destruct (Req_dec_T (sqrt LT) 0) as [E|_]; [|reflexivity].
  pose proof (sqrt_lt_R0 LT H). lra.
Qed.










(** ** The thickness solver *)

Lemma float_div_silent (a b : R) : (float_div a b).1 = [].
Proof. unfold float_div. destruct (Req_dec_T b 0); reflexivity. Qed.

Lemma float_pow_silent (x y : R) : (float_pow x y).1 = [].
Proof.
  unfold float_pow.
  repeat (destruct (Req_dec_T _ _) || destruct (Rlt_dec _ _)); reflexivity.
Qed.

Lemma bind_silent {A B : Type} (c : M A) (f : A → M B) :
  c.1 = [] → (∀ a, (f a).1 = []) → (c ≫= f).1 = [].
Proof.
  destruct c as [out [a|e]]; simpl; intros -> Hf; [|reflexivity].
  specialize (Hf a). destruct (f a) as [out' r]. simpl in *. exact Hf.
Qed.

(** A loop whose body does not read the loop variable and prints nothing does
    in [n+1] rounds what it does in one. *)
Lemma repetir_const (n : nat) (c : M num) (x : num) :
  c.1 = [] → repetir (S n) (λ _, c) x = c.
Proof.
  intros Hc. revert x. induction n as [|n IH]; intros x.
  - destruct c as [out [a|e]]; simpl in *; subst; reflexivity.
  - change (repetir (S (S n)) (λ _, c) x)
      with (c ≫= λ x', repetir (S n) (λ _, c) x').
    destruct c as [out [a|e]]; simpl in Hc; subst; [|reflexivity].
    unfold mbind, M_bind. rewrite IH by reflexivity. reflexivity.
Qed.

Lemma una_evaluacion_silent (AB D : R) : (una_evaluacion AB D).1 = [].
Proof.
  apply bind_silent; [apply float_div_silent | intros; apply float_pow_silent].
Qed.

(** The initial guess and the number of rounds (at least one) do not matter,
    whether the solver returns or raises. *)
Lemma calcular_espesor_losa_rigida_desde_indep
    (e0 e0' : R) (n n' : nat) ESALs ZR So Sc Cd Ec k delta_PSI :
  (0 < n)%nat → (0 < n')%nat →
  calcular_espesor_losa_rigida_desde e0 n ESALs ZR So Sc Cd Ec k delta_PSI =
  calcular_espesor_losa_rigida_desde e0' n' ESALs ZR So Sc Cd Ec k delta_PSI.
Proof.
  intros Hn Hn'. destruct n as [|n]; [lia|]. destruct n' as [|n']; [lia|].
  unfold calcular_espesor_losa_rigida_desde.
  repeat (apply bind_ext; intros ?).
  rewrite !repetir_const by apply una_evaluacion_silent. reflexivity.
Qed.

(** When the solver returns, it returns the formula; the conditions under
    which it does are those of [calcular_espesor_losa_rigida_returns]. *)
Lemma calcular_espesor_losa_rigida_inv ESALs ZR So Sc Cd Ec k delta_PSI out v :
  calcular_espesor_losa_rigida ESALs ZR So Sc Cd Ec k delta_PSI
    = (out, Return v) →
  ∃ e sc, as_real ESALs = Some e ∧ as_real Sc = Some sc ∧
          v = espesor_formula e ZR So sc Cd k delta_PSI ∧
          out = [EspesorTitulo; EspesorCalculado (Float v)].
Proof.
  unfold calcular_espesor_losa_rigida, calcular_espesor_losa_rigida_desde.
  unfold operand.
  destruct (as_real ESALs) as [e|]; [|raised].
  run. destruct (Rlt_dec 0 (e + 1)) as [He1|He1];
    [rewrite (math_log10_pos (e + 1)) by exact He1
    |rewrite (math_log10_nonpos (e + 1)) by lra; raised].
  run. destruct (as_real Sc) as [sc|]; [|raised].
  run. destruct (Rtotal_order k 0) as [Hk | [-> | Hk]].
  - (* k < 0: C is complex and math.sqrt refuses it *)
    rewrite (float_pow_neg k 0.25 0) by (simpl; lra). run.
    destruct (div_num_polar (sc * Cd) (Rpower (- k) 0.25) (PI * 0.25)
                (Rpower_pos _ _)) as (c & -> & re & im & ->).
    run. destruct (Rlt_dec 0 e);
      [rewrite math_log10_pos by assumption
      |rewrite math_log10_nonpos by lra]; raised.
  - rewrite float_pow_zero by lra. run. rewrite div_num_zero. raised.
  - rewrite (float_pow_pos _ _ Hk). run.
    pose proof (Rpower_pos k 0.25) as Hp.
    rewrite div_num_float by lra. run.
    destruct (Rlt_dec 0 e) as [He|He];
      [rewrite math_log10_pos by assumption
      |rewrite math_log10_nonpos by lra; raised].
    run.
    destruct (Rlt_dec (sc * Cd / Rpower k 0.25) 0) as [HC|HC];
      [rewrite math_sqrt_neg by assumption; raised
      |rewrite math_sqrt_nonneg by lra].
    run. rewrite repetir_const by apply una_evaluacion_silent.
    destruct (Req_dec_T ((4.22 - 0.32 * delta_PSI) * log10 e +
              (215.63 * sqrt (sc * Cd / Rpower k 0.25) - 18.42)) 0) as [HD|HD].
    { rewrite HD, float_div_zero. raised. }
    rewrite float_div_nonzero by exact HD. run.
    set (q := (ZR * So + (7.35 * log10 (e + 1) - 0.06)) /
              ((4.22 - 0.32 * delta_PSI) * log10 e +
               (215.63 * sqrt (sc * Cd / Rpower k 0.25) - 18.42))).
    destruct (Rlt_dec q 0) as [Hq|Hq].
    + rewrite (float_pow_neg q (1 / 1.132) 0) by (simpl; lra). raised.
    + rewrite float_pow_nonneg by lra. run.
      intros [= <- <-]. exists e, sc.
      unfold espesor_formula. rewrite (potencia_pos k) by assumption.
      repeat split; reflexivity.
Qed.

Lemma espesor_formula_terminos (ESALs ZR So Sc Cd k delta_PSI : R) :
  espesor_formula ESALs ZR So Sc Cd k delta_PSI =
  round2 (potencia (termino_AB ESALs ZR So / termino_D ESALs Sc Cd k delta_PSI)
                   (1 / 1.132)).
Proof. reflexivity. Qed.

(** Sufficient conditions for the solver to return: positive traffic and
    k-value, a non-negative [Sc * Cd], a non-zero divisor and a quotient that
    is not negative. *)
Lemma calcular_espesor_losa_rigida_returns (e ZR So sc Cd : R) (Ec : value)
    (k delta_PSI : R) :
  0 < e → 0 < k → 0 <= sc * Cd →
  termino_D e sc Cd k delta_PSI ≠ 0 →
  0 <= termino_AB e ZR So / termino_D e sc Cd k delta_PSI →
  calcular_espesor_losa_rigida (PNum e) ZR So (PNum sc) Cd Ec k delta_PSI =
    ([EspesorTitulo;
      EspesorCalculado (Float (espesor_formula e ZR So sc Cd k delta_PSI))],
     Return (espesor_formula e ZR So sc Cd k delta_PSI)).
Proof.
  intros He Hk Hsc HD Hq.
  rewrite espesor_formula_terminos.
  unfold termino_AB, termino_D in *. rewrite (potencia_pos k) in * by assumption.
  pose proof (Rpower_pos k 0.25) as Hp.
  assert (0 <= sc * Cd / Rpower k 0.25) as HC.
  { apply Rmult_le_pos; [exact Hsc|]. left. apply Rinv_0_lt_compat, Hp. }
  unfold calcular_espesor_losa_rigida, calcular_espesor_losa_rigida_desde.
  run. rewrite math_log10_pos by lra. run.
  rewrite (float_pow_pos _ _ Hk). run.
  rewrite div_num_float by lra. run.
  rewrite math_log10_pos by lra. run.
  rewrite math_sqrt_nonneg by exact HC. run.
  rewrite repetir_const by apply una_evaluacion_silent.
  rewrite float_div_nonzero by exact HD. run.
  rewrite float_pow_nonneg by (try exact Hq; lra). reflexivity.
Qed.

(** C3. Whenever the solver returns, the value is the design equation
    evaluated once and rounded to two decimals, and the same lines and value
    come out for every initial guess and every positive number of rounds. *)
Theorem calcular_espesor_losa_rigida_single_evaluation
    ESALs ZR So Sc Cd Ec k delta_PSI out v :
  calcular_espesor_losa_rigida ESALs ZR So Sc Cd Ec k delta_PSI
    = (out, Return v) →
  (∃ e sc, as_real ESALs = Some e ∧ as_real Sc = Some sc ∧
           v = espesor_formula e ZR So sc Cd k delta_PSI) ∧
  (∀ (espesor_0 : R) (n : nat), (0 < n)%nat →
     calcular_espesor_losa_rigida_desde espesor_0 n
       ESALs ZR So Sc Cd Ec k delta_PSI = (out, Return v)).
Proof.
  intros H. split.
  - destruct (calcular_espesor_losa_rigida_inv _ _ _ _ _ _ _ _ _ _ H)
      as (e & sc & He & Hsc & Hv & _).
    exists e, sc. auto.
  - intros e0 n Hn. rewrite <- H. unfold calcular_espesor_losa_rigida.
    apply calcular_espesor_losa_rigida_desde_indep; lia.
Qed.

(** C6. With ESALs <= 0 the solver never returns: only the title is printed
    and an exception is raised.  It is the [ValueError] of [math.log10]
    ("math domain error") unless the k-value is 0, in which case the division
    by [k ** 0.25] raises [ZeroDivisionError] first when ESALs > -1. *)
Theorem calcular_espesor_losa_rigida_nonpositive_esals
    (e ZR So sc Cd : R) (Ec : value) (k delta_PSI : R) :
  e <= 0 →
  ∃ err,
    calcular_espesor_losa_rigida (PNum e) ZR So (PNum sc) Cd Ec k delta_PSI
      = ([EspesorTitulo], Raise err) ∧
    (err = ValueError ∨ err = ZeroDivisionError) ∧
    (k ≠ 0 → err = ValueError).
Proof.
  intros He.
  unfold calcular_espesor_losa_rigida, calcular_espesor_losa_rigida_desde.
  run. destruct (Rlt_dec 0 (e + 1)) as [He1|He1].
  2:{ rewrite (math_log10_nonpos (e + 1)) by lra. run. eauto. }
  rewrite (math_log10_pos (e + 1)) by exact He1. run.
  destruct (Rtotal_order k 0) as [Hk | [-> | Hk]].
  - rewrite (float_pow_neg k 0.25 0) by (simpl; lra). run.
    destruct (div_num_polar (sc * Cd) (Rpower (- k) 0.25) (PI * 0.25)
                (Rpower_pos _ _)) as (c & -> & _).
    run. rewrite math_log10_nonpos by exact He. run. eauto.
  - rewrite float_pow_zero by lra. run. rewrite div_num_zero. run.
    eexists. split; [reflexivity|]. split; [auto|]. intros N. lra.
  - rewrite (float_pow_pos _ _ Hk). run.
    pose proof (Rpower_pos k 0.25) as Hp.
    rewrite div_num_float by lra. run.
    rewrite math_log10_nonpos by exact He. run. eauto.
Qed.

Lemma calcular_espesor_losa_rigida_nonpositive_esals_witness :
  0 <= 0 ∧
  ∃ err,
    calcular_espesor_losa_rigida (PNum 0) (-1.645) 0.39 (PNum 650) 1
      (PNum 4000000) 13054 2 = ([EspesorTitulo], Raise err) ∧
    (err = ValueError ∨ err = ZeroDivisionError) ∧
    (13054 ≠ 0 → err = ValueError).
Proof.
  split; [lra|].
  apply (calcular_espesor_losa_rigida_nonpositive_esals
           0 (-1.645) 0.39 650 1 (PNum 4000000) 13054 2).
  lra.
Defined.

(** ** Numeric bounds *)

(** Logarithms. *)
Lemma ln_10_pos : 0 < ln 10.
Proof. rewrite <- ln_1. apply ln_increasing; lra. Qed.

Lemma log10_pow (n : nat) : log10 (10 ^ n) = INR n.
Proof.
  unfold log10. rewrite ln_pow by lra.
  pose proof ln_10_pos. field. lra.
Qed.

Lemma log10_lt (x y : R) : 0 < x → x < y → log10 x < log10 y.
Proof.
  intros Hx Hxy. unfold log10. pose proof ln_10_pos as H10.
  apply Rmult_lt_compat_r; [apply Rinv_0_lt_compat, H10|].
  apply ln_increasing; assumption.
Qed.

Lemma log10_1000000 : log10 1000000 = 6.
Proof.
  replace 1000000 with (10 ^ 6) by lra. rewrite log10_pow.
  rewrite INR_IZR_INZ. reflexivity.
Qed.

(** Roots: comparing [p] with [q] through their powers. *)
Lemma pow_lt_inv (p q : R) (n : nat) : 0 <= q → p ^ n < q ^ n → p < q.
Proof.
  intros Hq H. destruct (Rlt_dec p q) as [|N]; [assumption|].
  exfalso. assert (q ^ n <= p ^ n) by (apply pow_incr; lra). lra.
Qed.

(** Powers of fractions are compared in [Z]. *)
Lemma frac_pow_lt (p q : R) (a b c d : Z) (m n : nat) :
  p = IZR a / IZR b → q = IZR c / IZR d → (0 < b)%Z → (0 < d)%Z →
  (a ^ Z.of_nat m * d ^ Z.of_nat n <? c ^ Z.of_nat n * b ^ Z.of_nat m)%Z = true →
  p ^ m < q ^ n.
Proof.
  intros -> -> Hb Hd H. apply Z.ltb_lt, IZR_lt in H.
  rewrite !mult_IZR, <- !pow_IZR in H.
  unfold Rdiv. rewrite !Rpow_mult_distr, !pow_inv.
  assert (0 < IZR b ^ m) as HB by (apply pow_lt, IZR_lt, Hb).
  assert (0 < IZR d ^ n) as HD by (apply pow_lt, IZR_lt, Hd).
  revert H HB HD.
  generalize (IZR a ^ m) (IZR b ^ m) (IZR c ^ n) (IZR d ^ n).
  intros A B C D H HB HD.
  apply (Rmult_lt_reg_r (B * D)); [nra|].
  replace (A * / B * (B * D)) with (A * D) by (field; lra).
  replace (C * / D * (B * D)) with (C * B) by (field; lra).
  exact H.
Qed.

(** The exponent 0.684 is 171/250. *)
Lemma Rpower_684_pow (x : R) : 0 < x → Rpower x 0.684 ^ 250 = x ^ 171.
Proof.
  intros Hx.
  rewrite <- (Rpower_pow 250) by apply Rpower_pos.
  rewrite Rpower_mult.
  replace (0.684 * INR 250) with (INR 171).
  - apply Rpower_pow, Hx.
  - assert (INR 171 = 171) as -> by (rewrite INR_IZR_INZ; reflexivity).
    assert (INR 250 = 250) as -> by (rewrite INR_IZR_INZ; reflexivity).
    lra.
Qed.

(** Bounds on [x ** 0.684] from bounds on its 250th power. *)
Lemma Rpower_684_between (x lo hi : R) :
  0 < x → 0 <= lo → 0 <= hi →
  lo ^ 250 < (x / 1) ^ 171 → (x / 1) ^ 171 < hi ^ 250 →
  lo < Rpower x 0.684 < hi.
Proof.
  intros Hx Hl Hh Hlo Hhi.
  replace (x / 1) with x in * by lra.
  rewrite <- (Rpower_684_pow x Hx) in Hlo, Hhi.
  pose proof (Rpower_pos x 0.684) as Hp.
  split; eapply pow_lt_inv; try eassumption; lra.
Qed.

Ltac fraccion := first [reflexivity | lra].
Ltac compara_potencias a b c d :=
  apply (frac_pow_lt _ _ a b c d);
  [fraccion | fraccion | lia | lia | vm_compute; reflexivity].

Lemma Rpower_8_bounds : 4.1468044 < Rpower 8 0.684 < 4.1468045.
Proof.
  apply Rpower_684_between; [lra | lra | lra | | ].
  - compara_potencias 41468044%Z 10000000%Z 8%Z 1%Z.
  - compara_potencias 8%Z 1%Z 41468045%Z 10000000%Z.
Qed.

Lemma Rpower_8_0000001_bounds : 4.1468044 < Rpower 8.0000001 0.684 < 4.1468045.
Proof.
  apply Rpower_684_between; [lra | lra | lra | | ].
  - compara_potencias 41468044%Z 10000000%Z 80000001%Z 10000000%Z.
  - compara_potencias 80000001%Z 10000000%Z 41468045%Z 10000000%Z.
Qed.

Lemma sqrt_between (a b x : R) :
  0 <= a → 0 <= b → a * a < x < b * b → a < sqrt x < b.
Proof.
  intros Ha Hb [H1 H2].
  split.
  - rewrite <- (sqrt_square a Ha). apply sqrt_lt_1_alt. nra.
  - rewrite <- (sqrt_square b Hb). apply sqrt_lt_1_alt. nra.
Qed.

Lemma sqrt_6_bounds : 2.4494897 < sqrt 6 < 2.4494898.
Proof. apply sqrt_between; lra. Qed.

(** The four intermediate values of the worked example. *)
Lemma mrsg_8 : round2 (1945 * Rpower 8 0.684) = 8065.53.
Proof.
  pose proof Rpower_8_bounds. rewrite (round2_eq _ 806553); lra.
Qed.

Lemma mrsg_8_0000001 : round2 (1945 * Rpower 8.0000001 0.684) = 8065.53.
Proof.
  pose proof Rpower_8_0000001_bounds. rewrite (round2_eq _ 806553); lra.
Qed.

Lemma k_subgrade_8 : round2 (8065.53 / 10) = 806.55.
Proof. rewrite (round2_eq _ 80655); lra. Qed.

Lemma k_base_6 : round2 (30000 / sqrt 6) = 12247.45.
Proof.
  pose proof sqrt_6_bounds as [Hlo Hhi].
  assert (30000 / sqrt 6 * sqrt 6 = 30000) as E by (field; lra).
  revert E. generalize (30000 / sqrt 6). intros x E.
  rewrite (round2_eq _ 1224745); [lra|]. nra.
Qed.

Lemma k_total_8_6 : round2 (8065.53 / 10 + 30000 / sqrt 6) = 13054.
Proof.
  pose proof sqrt_6_bounds as [Hlo Hhi].
  assert (30000 / sqrt 6 * sqrt 6 = 30000) as E by (field; lra).
  revert E. generalize (30000 / sqrt 6). intros x E.
  rewrite (round2_eq _ 1305400); [lra|]. nra.
Qed.

(** ** The driver on well-formed input *)

Lemma main_try_entrada env datos ESALs Sc Ec CBR rmb eb :
  archivos env !! archivo_entrada = Some (Json datos) →
  entrada datos ESALs Sc Ec CBR rmb eb →
  main_try env = etapas ESALs Sc Ec CBR rmb eb.
Proof.
  intros Hf [H1 H2 H3 H4 H5 H6]. unfold main_try.
  replace (leer_datos_entrada env archivo_entrada) with (mret datos : M value)
    by (unfold leer_datos_entrada; rewrite Hf; reflexivity).
  rewrite bind_ret, H1, bind_ret, H2, bind_ret, H3, bind_ret, H4, bind_ret,
    H5, bind_ret, H6, bind_ret.
  reflexivity.
Qed.

Lemma archivo_ejemplo :
  archivos entorno_ejemplo !! archivo_entrada = Some (Json datos_ejemplo).
Proof. reflexivity. Qed.

Lemma entrada_ejemplo :
  entrada datos_ejemplo (PNum 1000000) (PNum 650) (PNum 4000000) (PNum 8)
    (PNum 30000) (PNum 6).
Proof. split; reflexivity. Qed.

Lemma round2_8 : round2 8 = 8.
Proof. rewrite (round2_eq _ 800); lra. Qed.

Lemma espesor_ejemplo_run :
  calcular_espesor_losa_rigida (PNum 1000000) (-1.645) 0.39 (PNum 650) 1
      (PNum 4000000) 13054 2 =
    ([EspesorTitulo; EspesorCalculado (Float espesor_ejemplo)],
     Return espesor_ejemplo).
Proof.
  assert (6 < log10 (1000000 + 1)) as Hl.
  { rewrite <- log10_1000000. apply log10_lt; lra. }
  assert (0 <= sqrt (650 * 1 / potencia 13054 0.25)) as Hs by apply sqrt_pos.
  assert (0 < termino_AB 1000000 (-1.645) 0.39) as HAB.
  { unfold termino_AB. lra. }
  assert (0 < termino_D 1000000 650 1 13054 2) as HD.
  { unfold termino_D. rewrite log10_1000000. lra. }
  apply calcular_espesor_losa_rigida_returns; try lra.
  left. apply Rdiv_lt_0_compat; assumption.
Qed.

Lemma etapas_ejemplo :
  etapas (PNum 1000000) (PNum 650) (PNum 4000000) (PNum 8) (PNum 30000) (PNum 6) =
    ([MrsgTitulo; CbrIngresado 8; MrsgCalculado (Float 8065.53);
      KTitulo; KSubgrade 806.55; KBase (Float 12247.45); KTotal (Float 13054);
      EspesorTitulo; EspesorCalculado (Float espesor_ejemplo);
      ResultadosFinales; FinalCbr (PNum 8); FinalMrsg 8065.53; FinalK 13054;
      FinalEspesor espesor_ejemplo],
     Return tt).
Proof.
  unfold etapas.
  rewrite calcular_mrsg_subgrade_run, round2_8, mrsg_8 by lra. run.
  rewrite calcular_k_subestructura_run, k_subgrade_8, k_base_6, k_total_8_6
    by lra.
  run. rewrite espesor_ejemplo_run. reflexivity.
Qed.

Lemma main_ejemplo_run :
  main entorno_ejemplo =
    [Leyendo archivo_entrada;
     MrsgTitulo; CbrIngresado 8; MrsgCalculado (Float 8065.53);
     KTitulo; KSubgrade 806.55; KBase (Float 12247.45); KTotal (Float 13054);
     EspesorTitulo; EspesorCalculado (Float espesor_ejemplo);
     ResultadosFinales; FinalCbr (PNum 8); FinalMrsg 8065.53; FinalK 13054;
     FinalEspesor espesor_ejemplo].
Proof.
  unfold main.
  rewrite (main_try_entrada _ _ _ _ _ _ _ _ archivo_ejemplo entrada_ejemplo).
  rewrite etapas_ejemplo. reflexivity.
Qed.

(** C7, as the code has it.  On the worked example the driver prints
    MRSG = 8065.53, k_subgrade = 806.55, k_base = 12247.45 and
    k_total = 13054.00, then the thickness of the design equation. *)
Theorem main_ejemplo :
  main entorno_ejemplo =
    [Leyendo archivo_entrada;
     MrsgTitulo; CbrIngresado 8; MrsgCalculado (Float 8065.53);
     KTitulo; KSubgrade 806.55; KBase (Float 12247.45); KTotal (Float 13054);
     EspesorTitulo; EspesorCalculado (Float espesor_ejemplo);
     ResultadosFinales; FinalCbr (PNum 8); FinalMrsg 8065.53; FinalK 13054;
     FinalEspesor espesor_ejemplo].
Proof.
  unfold main.
  rewrite (main_try_entrada _ _ _ _ _ _ _ _ archivo_ejemplo entrada_ejemplo).
  rewrite etapas_ejemplo. reflexivity.
Qed.

(** C7 as stated fails: none of MRSG = 7739.12, k_subgrade = 773.91 and
    k_total = 13021.36 is printed on the worked example. *)
Lemma main_ejemplo_not_as_stated :
  ¬ In (MrsgCalculado (Float 7739.12)) (main entorno_ejemplo) ∧
  ¬ In (KSubgrade 773.91) (main entorno_ejemplo) ∧
  ¬ In (KTotal (Float 13021.36)) (main entorno_ejemplo).
Proof.
  rewrite main_ejemplo_run.
  repeat split; intros H; simpl in H;
    repeat (destruct H as [H|H]; [try discriminate H; injection H; lra|]);
    exact H.
Qed.

(** ** Monotonicity of the subgrade modulus *)

(** C8, as the code has it.  Before rounding the modulus is strictly
    increasing in CBR; the value returned, rounded to two decimals, is
    non-decreasing. *)
Theorem calcular_mrsg_subgrade_monotone (CBR1 CBR2 : R) :
  0 < CBR1 → CBR1 < CBR2 →
  1945 * Rpower CBR1 0.684 < 1945 * Rpower CBR2 0.684 ∧
  ∃ out1 out2 m1 m2,
    calcular_mrsg_subgrade (PNum CBR1) = (out1, Return m1) ∧
    calcular_mrsg_subgrade (PNum CBR2) = (out2, Return m2) ∧
    m1 <= m2.
Proof.
  intros H1 H12.
  assert (Rpower CBR1 0.684 < Rpower CBR2 0.684) as Hlt
    by (apply Rlt_Rpower_l; lra).
  split; [lra|].
  do 4 eexists.
  split; [apply calcular_mrsg_subgrade_run; lra|].
  split; [apply calcular_mrsg_subgrade_run; lra|].
  apply round2_mono. lra.
Qed.

Lemma calcular_mrsg_subgrade_monotone_witness :
  0 < 8 ∧ 8 < 9 ∧
  1945 * Rpower 8 0.684 < 1945 * Rpower 9 0.684 ∧
  ∃ out1 out2 m1 m2,
    calcular_mrsg_subgrade (PNum 8) = (out1, Return m1) ∧
    calcular_mrsg_subgrade (PNum 9) = (out2, Return m2) ∧
    m1 <= m2.
Proof.
  split; [lra|]. split; [lra|].
  apply (calcular_mrsg_subgrade_monotone 8 9); lra.
Defined.

(** C8 as stated fails: CBR = 8 and CBR = 8.0000001 give the same modulus,
    8065.53, so the increase is not strict. *)
Lemma calcular_mrsg_subgrade_not_strict :
  0 < 8 ∧ 8 < 8.0000001 ∧
  (calcular_mrsg_subgrade (PNum 8)).2 = Return 8065.53 ∧
  (calcular_mrsg_subgrade (PNum 8.0000001)).2 = Return 8065.53 ∧
  ¬ 8065.53 < 8065.53.
Proof.
  split; [lra|]. split; [lra|].
  rewrite !calcular_mrsg_subgrade_run by lra.
  rewrite mrsg_8, mrsg_8_0000001. simpl.
  split; [reflexivity|]. split; [reflexivity|lra].
Qed.

(** ** The driver on input without the subgrade CBR *)


(** Reading a field prints nothing; it yields the value, or raises [KeyError]
    (absent key) or [TypeError] (not a dict). *)
Lemma campo_cases (datos : value) (seccion clave : string) :
  (∃ v, campo datos seccion clave = mret v) ∨
  (∃ k, campo datos seccion clave = raise (KeyError k)) ∨
  campo datos seccion clave = raise TypeError.
Proof.
  unfold campo, subscript.
  destruct datos as [| | | | |d]; try (right; right; reflexivity).
  destruct (d !! seccion) as [s|]; [|right; left; eexists; reflexivity].
  run. destruct s as [| | | | |d']; try (right; right; reflexivity).
  destruct (d' !! clave) as [v|].
  - left. exists v. reflexivity.
  - right. left. eexists. reflexivity.
Qed.

Lemma main_raise (env : entorno) (e : exn) :
  main_try env = raise e → main env = Leyendo archivo_entrada :: main_except e.
Proof. intros H. unfold main. rewrite H. reflexivity. Qed.

Lemma leer_datos_entrada_json (env : entorno) (datos : value) :
  archivos env !! archivo_entrada = Some (Json datos) →
  leer_datos_entrada env archivo_entrada = mret datos.
Proof. intros H. unfold leer_datos_entrada. rewrite H. reflexivity. Qed.


Lemma archivo_sin_subgrade :
  archivos entorno_sin_subgrade !! archivo_entrada
    = Some (Json datos_sin_subgrade).
Proof. reflexivity. Qed.



(** ** The solver on the worked example *)

Lemma calcular_espesor_losa_rigida_single_evaluation_witness :
  calcular_espesor_losa_rigida (PNum 1000000) (-1.645) 0.39 (PNum 650) 1
      (PNum 4000000) 13054 2 =
    ([EspesorTitulo; EspesorCalculado (Float espesor_ejemplo)],
     Return espesor_ejemplo) ∧
  (∃ e sc, as_real (PNum 1000000) = Some e ∧ as_real (PNum 650) = Some sc ∧
           espesor_ejemplo = espesor_formula e (-1.645) 0.39 sc 1 13054 2) ∧
  (∀ (espesor_0 : R) (n : nat), (0 < n)%nat →
     calcular_espesor_losa_rigida_desde espesor_0 n (PNum 1000000) (-1.645)
       0.39 (PNum 650) 1 (PNum 4000000) 13054 2 =
     ([EspesorTitulo; EspesorCalculado (Float espesor_ejemplo)],
      Return espesor_ejemplo)).
Proof.
  split; [exact espesor_ejemplo_run|].
  apply (calcular_espesor_losa_rigida_single_evaluation
           (PNum 1000000) (-1.645) 0.39 (PNum 650) 1 (PNum 4000000) 13054 2).
  exact espesor_ejemplo_run.
Defined.

(** ** The k-value the driver computes *)

(** Rounding the modulus before it enters the k-value can be seen in the
    result: with CBR = 8 and a base term of 0.0017 the k-value is 806.55,
    where the unrounded modulus would give 806.56. *)
Lemma doble_redondeo_observable :
  round2 (round2 (1945 * Rpower 8 0.684) / 10 + 0.0017 / sqrt 1) = 806.55 ∧
  round2 (1945 * Rpower 8 0.684 / 10 + 0.0017 / sqrt 1) = 806.56.
Proof.
  pose proof Rpower_8_bounds. rewrite mrsg_8, sqrt_1. split.
  - rewrite (round2_eq _ 80655); lra.
  - rewrite (round2_eq _ 80656); lra.
Qed.



(** * Further properties of the code *)

(** ** When each calculator returns *)




(** ** Rounding error and monotonicity of the k-value *)



Lemma base_term_mono (R1 R2 L1 L2 : R) :
  0 <= R1 → R1 <= R2 → 0 < L2 → L2 <= L1 → R1 / sqrt L1 <= R2 / sqrt L2.
Proof.
  intros H0 HR HL HLL.
  assert (0 < sqrt L2) as H2 by (apply sqrt_lt_R0; lra).
  assert (sqrt L2 <= sqrt L1) as Hs by (apply sqrt_le_1_alt; lra).
  assert (/ sqrt L1 <= / sqrt L2) as Hi by (apply Rinv_le_contravar; lra).
  assert (0 < / sqrt L1) by (apply Rinv_0_lt_compat; lra).
  unfold Rdiv. nra.
Qed.



(** X5. [calcular_k_subestructura_psi_in] (l.38-44) is non-decreasing in the
    subgrade modulus and in a non-negative base modulus, and non-increasing in
    the base thickness: a thicker base lowers the k-value. *)
Theorem calcular_k_subestructura_monotone (M1 M2 R1 R2 L1 L2 : R) :
  M1 <= M2 → 0 <= R1 → R1 <= R2 → 0 < L2 → L2 <= L1 →
  ∃ out1 out2 k1 k2,
    calcular_k_subestructura_psi_in M1 (PNum R1) (PNum L1) = (out1, Return k1) ∧
    calcular_k_subestructura_psi_in M2 (PNum R2) (PNum L2) = (out2, Return k2) ∧
    k1 <= k2.
Proof.
  intros HM H0 HR HL HLL. do 4 eexists.
  split; [apply calcular_k_subestructura_run; lra|].
  split; [apply calcular_k_subestructura_run; lra|].
  apply round2_mono. pose proof (base_term_mono R1 R2 L1 L2 H0 HR HL HLL). lra.
Qed.

Lemma calcular_k_subestructura_monotone_witness :
  8065.53 <= 8065.53 ∧ 0 <= 30000 ∧ 30000 <= 30000 ∧ 0 < 6 ∧ 6 <= 12 ∧
  ∃ out1 out2 k1 k2,
    calcular_k_subestructura_psi_in 8065.53 (PNum 30000) (PNum 12)
      = (out1, Return k1) ∧
    calcular_k_subestructura_psi_in 8065.53 (PNum 30000) (PNum 6)
      = (out2, Return k2) ∧
    k1 <= k2.
Proof.
  repeat (split; [lra|]).
  apply (calcular_k_subestructura_monotone 8065.53 8065.53 30000 30000 12 6); lra.
Defined.

(** X6. Stage 1 followed by stage 2 (l.97-98): a larger CBR never gives a smaller
    k-value, other inputs being equal. *)
Theorem k_total_monotone_in_cbr (CBR1 CBR2 RM LT : R) :
  0 < CBR1 → CBR1 <= CBR2 → 0 < LT →
  ∃ out1 out2 out1' out2' m1 m2 k1 k2,
    calcular_mrsg_subgrade (PNum CBR1) = (out1, Return m1) ∧
    calcular_k_subestructura_psi_in m1 (PNum RM) (PNum LT) = (out2, Return k1) ∧
    calcular_mrsg_subgrade (PNum CBR2) = (out1', Return m2) ∧
    calcular_k_subestructura_psi_in m2 (PNum RM) (PNum LT) = (out2', Return k2) ∧
    k1 <= k2.
Proof.
  intros H1 H12 HL. do 8 eexists.
  split; [apply calcular_mrsg_subgrade_run; lra|].
  split; [apply calcular_k_subestructura_run; lra|].
  split; [apply calcular_mrsg_subgrade_run; lra|].
  split; [apply calcular_k_subestructura_run; lra|].
  assert (Rpower CBR1 0.684 <= Rpower CBR2 0.684)
    by (apply Rle_Rpower_l; lra).
  assert (round2 (1945 * Rpower CBR1 0.684) <= round2 (1945 * Rpower CBR2 0.684))
    by (apply round2_mono; lra).
  apply round2_mono. lra.
Qed.

Lemma k_total_monotone_in_cbr_witness :
  0 < 8 ∧ 8 <= 9 ∧ 0 < 6 ∧
  ∃ out1 out2 out1' out2' m1 m2 k1 k2,
    calcular_mrsg_subgrade (PNum 8) = (out1, Return m1) ∧
    calcular_k_subestructura_psi_in m1 (PNum 30000) (PNum 6) = (out2, Return k1) ∧
    calcular_mrsg_subgrade (PNum 9) = (out1', Return m2) ∧
    calcular_k_subestructura_psi_in m2 (PNum 30000) (PNum 6) = (out2', Return k2) ∧
    k1 <= k2.
Proof.
  repeat (split; [lra|]).
  apply (k_total_monotone_in_cbr 8 9 30000 6); lra.
Defined.

(** ** The solver and the driver on design inputs *)










(** X9. [main] requires the key ["ModulusOfElasticity"] (l.90) but never looks at
    its value: two inputs that agree on the five other fields print the same
    lines, whatever each holds there, a string included. *)
Theorem main_ignores_modulus_of_elasticity
    (env env' : entorno) (datos datos' ESALs Sc Ec Ec' CBR rmb eb : value) :
  archivos env !! archivo_entrada = Some (Json datos) →
  archivos env' !! archivo_entrada = Some (Json datos') →
  entrada datos ESALs Sc Ec CBR rmb eb →
  entrada datos' ESALs Sc Ec' CBR rmb eb →
  main env = main env'.
Proof.
  intros Hf Hf' Hin Hin'. unfold main.
  rewrite (main_try_entrada _ _ _ _ _ _ _ _ Hf Hin).
  rewrite (main_try_entrada _ _ _ _ _ _ _ _ Hf' Hin').
  reflexivity.
Qed.

Lemma archivo_sin_modulo :
  archivos entorno_sin_modulo !! archivo_entrada = Some (Json datos_sin_modulo).
Proof. reflexivity. Qed.

Lemma entrada_sin_modulo :
  entrada datos_sin_modulo (PNum 1000000) (PNum 650) (PStr "desconocido")
    (PNum 8) (PNum 30000) (PNum 6).
Proof. split; reflexivity. Qed.

Lemma main_ignores_modulus_of_elasticity_witness :
  archivos entorno_ejemplo !! archivo_entrada = Some (Json datos_ejemplo) ∧
  archivos entorno_sin_modulo !! archivo_entrada
    = Some (Json datos_sin_modulo) ∧
  main entorno_ejemplo = main entorno_sin_modulo.
Proof.
  split; [exact archivo_ejemplo|]. split; [exact archivo_sin_modulo|].
  exact (main_ignores_modulus_of_elasticity entorno_ejemplo entorno_sin_modulo
           datos_ejemplo datos_sin_modulo _ _ _ _ _ _ _
           archivo_ejemplo archivo_sin_modulo entrada_ejemplo entrada_sin_modulo).
Defined.

(** ** The driver on unusable input *)

(** X10. When the input file does not exist, [leer_datos_entrada] (l.11-12) raises
    [FileNotFoundError] with the file name and the working directory, and
    [main] (l.110-112) prints it followed by the advice line; nothing else. *)
Theorem main_missing_file (env : entorno) :
  archivos env !! archivo_entrada = None →
  main env =
    [Leyendo archivo_entrada;
     Excepcion (FileNotFoundError archivo_entrada (cwd env)); Asegurese].
Proof.
  intros H. unfold main, main_try, leer_datos_entrada. rewrite H. reflexivity.
Qed.

Lemma main_missing_file_witness :
  archivos entorno_vacio !! archivo_entrada = None ∧
  main entorno_vacio =
    [Leyendo archivo_entrada;
     Excepcion (FileNotFoundError archivo_entrada "/home/usuario"); Asegurese].
Proof.
  split; [reflexivity|]. apply (main_missing_file entorno_vacio). reflexivity.
Defined.

(** X11. A file that [json.load] rejects (l.14) is reported by the last [except]
    clause (l.115-116), not as a missing file and not as a missing key. *)
Theorem main_malformed_file (env : entorno) :
  archivos env !! archivo_entrada = Some Malformado →
  main env = [Leyendo archivo_entrada; ErrorInesperado ValueError].
Proof.
  intros H. unfold main, main_try, leer_datos_entrada. rewrite H. reflexivity.
Qed.

Lemma main_malformed_file_witness :
  archivos {| cwd := "/"; archivos := {[ archivo_entrada := Malformado ]} |}
    !! archivo_entrada = Some Malformado ∧
  main {| cwd := "/"; archivos := {[ archivo_entrada := Malformado ]} |} =
    [Leyendo archivo_entrada; ErrorInesperado ValueError].
Proof.
  split; [reflexivity|].
  apply (main_malformed_file
           {| cwd := "/"; archivos := {[ archivo_entrada := Malformado ]} |}).
  reflexivity.
Defined.

Ltac lee_campo datos s c :=
  let v := fresh "v" in let k := fresh "k" in let H := fresh "H" in
  destruct (campo_cases datos s c) as [[v H]|[[k H]|H]];
  rewrite H; [rewrite bind_ret | |].

(** X12. [main] reads all six fields (l.85-94) before it calls any calculator: if
    any one of them cannot be read, be it the last, the output is the heading
    and a single error line. *)
Theorem main_unreadable_field
    (env : entorno) (datos : value) (s c : string) (err : exn) :
  archivos env !! archivo_entrada = Some (Json datos) →
  In (s, c) campos_requeridos →
  campo datos s c = raise err →
  ∃ l, main env = [Leyendo archivo_entrada; l] ∧
       (l = ErrorInesperado TypeError ∨ ∃ k, l = ClaveFaltante (KeyError k)).
Proof.
  intros Hf Hin Herr. apply leer_datos_entrada_json in Hf.
  assert (∃ e, main_try env = raise e ∧ (e = TypeError ∨ ∃ k, e = KeyError k))
    as (e & He & Hk).
  { unfold main_try. rewrite Hf, bind_ret.
    lee_campo datos "Traffic" "ESALs"; [|eauto|eauto].
    lee_campo datos "Concrete" "FlexuralStrength"; [|eauto|eauto].
    lee_campo datos "Concrete" "ModulusOfElasticity"; [|eauto|eauto].
    lee_campo datos "Subgrade" "CBR"; [|eauto|eauto].
    lee_campo datos "Structure" "ResilientModulus"; [|eauto|eauto].
    lee_campo datos "Structure" "LayerThickness"; [|eauto|eauto].
    exfalso. simpl in Hin.
    repeat (destruct Hin as [Hin|Hin];
            [injection Hin as <- <-;
             match goal with
             | Ha : campo _ ?a ?b = mret _ |- _ =>
                 rewrite Ha in Herr; discriminate Herr
             end|]).
    exact Hin. }
  rewrite (main_raise env e He).
  destruct Hk as [-> | [k ->]]; eexists; (split; [reflexivity|]); eauto.
Qed.

Lemma main_unreadable_field_witness :
  archivos entorno_sin_subgrade !! archivo_entrada
    = Some (Json datos_sin_subgrade) ∧
  In ("Subgrade", "CBR") campos_requeridos ∧
  campo datos_sin_subgrade "Subgrade" "CBR" = raise (KeyError "Subgrade") ∧
  ∃ l, main entorno_sin_subgrade = [Leyendo archivo_entrada; l] ∧
       (l = ErrorInesperado TypeError ∨ ∃ k, l = ClaveFaltante (KeyError k)).
Proof.
  split; [exact archivo_sin_subgrade|].
  split; [simpl; tauto|]. split; [reflexivity|].
  apply (main_unreadable_field entorno_sin_subgrade datos_sin_subgrade
           "Subgrade" "CBR" (KeyError "Subgrade") archivo_sin_subgrade).
  - simpl. tauto.
  - reflexivity.
Defined.

(** X13. The error [main] reports is that of the first field, in reading order,
    that cannot be read: [KeyError] naming the absent key, or [TypeError] when
    the enclosing value is not an object. *)
Theorem main_first_unreadable_field
    (env : entorno) (datos : value) (pre post : list (string * string))
    (s c : string) (err : exn) :
  archivos env !! archivo_entrada = Some (Json datos) →
  campos_requeridos = pre ++ (s, c) :: post →
  Forall (λ p, ∃ v, campo datos p.1 p.2 = mret v) pre →
  campo datos s c = raise err →
  main env = Leyendo archivo_entrada :: main_except err.
Proof.
  intros Hf Hsplit Hpre Herr. apply leer_datos_entrada_json in Hf.
  apply main_raise. unfold main_try. rewrite Hf, bind_ret.
  unfold campos_requeridos in Hsplit.
  repeat
    (destruct pre as [|p pre]; simpl in Hsplit;
     [injection Hsplit as <- <- _; rewrite Herr; reflexivity|];
     injection Hsplit as <- Hsplit;
     apply Forall_cons in Hpre as [[? Hp] Hpre]; simpl in Hp;
     rewrite Hp, bind_ret; clear Hp).
  destruct pre; simpl in Hsplit; discriminate Hsplit.
Qed.

Lemma main_first_unreadable_field_witness :
  archivos entorno_objeto_vacio !! archivo_entrada = Some (Json (PDict ∅)) ∧
  campos_requeridos = [] ++ ("Traffic", "ESALs") :: tl campos_requeridos ∧
  campo (PDict ∅) "Traffic" "ESALs" = raise (KeyError "Traffic") ∧
  main entorno_objeto_vacio =
    [Leyendo archivo_entrada; ClaveFaltante (KeyError "Traffic")].
Proof.
  split; [reflexivity|]. split; [reflexivity|]. split; [reflexivity|].
  apply (main_first_unreadable_field entorno_objeto_vacio (PDict ∅) []
           (tl campos_requeridos) "Traffic" "ESALs" (KeyError "Traffic")).
  - reflexivity.
  - reflexivity.
  - apply Forall_nil_2.
  - reflexivity.
Defined.

(** ** The shape of what [main] prints *)

Lemma lineas_bind {A B : Type} (P : line → Prop) (c : M A) (f : A → M B) :
  Forall P c.1 → (∀ a, Forall P (f a).1) → Forall P (c ≫= f).1.
Proof.
  destruct c as [out [a|e]]; simpl; intros Hc Hf; [|exact Hc].
  specialize (Hf a). destruct (f a) as [out' r]. simpl in *.
  apply Forall_app. split; assumption.
Qed.

(** Binding a computation that has already printed [out] and returned. *)
Lemma bind_ret_out {A B : Type} (out : list line) (a : A) (f : A → M B) :
  ((out, Return a) : M A) ≫= f = ((out ++ (f a).1, (f a).2) : M B).
Proof. unfold mbind, M_bind. destruct (f a). reflexivity. Qed.

Lemma lineas_silent {A : Type} (P : line → Prop) (c : M A) :
  c.1 = [] → Forall P c.1.
Proof. intros ->. constructor. Qed.

Lemma operand_silent (v : value) : (operand v).1 = [].
Proof. unfold operand. destruct (as_real v); reflexivity. Qed.

Lemma format_2f_silent (v : value) : (format_2f v).1 = [].
Proof. destruct v as [|b|x|s|l|d]; reflexivity. Qed.

Lemma py_round2_silent (n : num) : (py_round2 n).1 = [].
Proof. destruct n; reflexivity. Qed.

Lemma div_num_silent (a : R) (n : num) : (div_num a n).1 = [].
Proof.
  destruct n as [b|re im]; simpl.
  - apply bind_silent; [apply float_div_silent|reflexivity].
  - destruct (Req_dec_T _ _); reflexivity.
Qed.

Lemma math_log10_silent (x : R) : (math_log10 x).1 = [].
Proof. unfold math_log10. destruct (Rlt_dec 0 x); reflexivity. Qed.

Lemma math_sqrt_silent (n : num) : (math_sqrt n).1 = [].
Proof.
  destruct n as [x|re im]; simpl; [destruct (Rlt_dec x 0)|]; reflexivity.
Qed.

Lemma repetir_silent (n : nat) (cuerpo : num → M num) (x : num) :
  (∀ y, (cuerpo y).1 = []) → (repetir n cuerpo x).1 = [].
Proof.
  intros Hc. revert x. induction n as [|n IH]; intros x; [reflexivity|].
  simpl. apply bind_silent; [apply Hc | exact IH].
Qed.

Ltac lineas :=
  repeat first
    [ apply lineas_silent;
      first [ apply operand_silent | apply format_2f_silent
            | apply py_round2_silent | apply div_num_silent
            | apply math_log10_silent | apply math_sqrt_silent
            | apply float_pow_silent | apply float_div_silent
            | apply repetir_silent; intros ?; cbv beta;
              apply una_evaluacion_silent ]
    | apply Forall_singleton; reflexivity
    | apply lineas_bind; [|intros ?] ].

Lemma calcular_mrsg_subgrade_lineas (CBR : value) :
  Forall (λ l, es_linea_de_etapa l = true) (calcular_mrsg_subgrade CBR).1.
Proof. unfold calcular_mrsg_subgrade, pow_value. lineas. Qed.

Lemma calcular_k_subestructura_lineas (MRSG : R) (rmb eb : value) :
  Forall (λ l, es_linea_de_etapa l = true)
    (calcular_k_subestructura_psi_in MRSG rmb eb).1.
Proof. unfold calcular_k_subestructura_psi_in, pow_value. lineas. Qed.

Lemma calcular_espesor_lineas ESALs ZR So Sc Cd Ec k delta_PSI :
  Forall (λ l, es_linea_de_etapa l = true)
    (calcular_espesor_losa_rigida ESALs ZR So Sc Cd Ec k delta_PSI).1.
Proof.
  unfold calcular_espesor_losa_rigida, calcular_espesor_losa_rigida_desde.
  lineas.
Qed.

Lemma etapas_outcome (ESALs Sc Ec CBR rmb eb : value) :
  ∃ cuerpo, Forall (λ l, es_linea_de_etapa l = true) cuerpo ∧
    ((∃ MRSG k espesor,
        etapas ESALs Sc Ec CBR rmb eb =
          (cuerpo ++ informe_final CBR MRSG k espesor, Return tt)) ∨
     (∃ err, etapas ESALs Sc Ec CBR rmb eb = (cuerpo, Raise err))).
Proof.
  unfold etapas.
  pose proof (calcular_mrsg_subgrade_lineas CBR) as H1.
  destruct (calcular_mrsg_subgrade CBR) as [o1 [m|e]]; simpl in H1.
  2:{ exists o1. split; [exact H1|]. right. eexists. reflexivity. }
  rewrite bind_ret_out.
  pose proof (calcular_k_subestructura_lineas m rmb eb) as H2.
  destruct (calcular_k_subestructura_psi_in m rmb eb) as [o2 [k|e]];
    simpl in H2.
  2:{ exists (o1 ++ o2). split; [apply Forall_app; split; assumption|].
      right. eexists. reflexivity. }
  rewrite bind_ret_out.
  pose proof (calcular_espesor_lineas ESALs (-1.645) 0.39 Sc 1 Ec k 2) as H3.
  destruct (calcular_espesor_losa_rigida ESALs (-1.645) 0.39 Sc 1 Ec k 2)
    as [o3 [es|e]]; simpl in H3;
    exists (o1 ++ o2 ++ o3);
    (split; [repeat (apply Forall_app; split); assumption|]).
  - left. exists m, k, es. unfold informe_final. simpl.
    rewrite <- !app_assoc. reflexivity.
  - right. exists e. simpl. rewrite <- ?app_assoc. reflexivity.
Qed.

(** X14. [main] (l.75-116) reports exactly one outcome.  Whatever the file system
    holds, its output is the heading, then lines printed by the calculators,
    then either the five-line final report or the message of one [except]
    clause: no exception escapes, no error message appears before the end,
    and the final report never follows a failure. *)
Theorem main_outcome (env : entorno) :
  ∃ cuerpo, Forall (λ l, es_linea_de_etapa l = true) cuerpo ∧
    ((∃ CBR MRSG k espesor,
        main env = Leyendo archivo_entrada :: cuerpo
                     ++ informe_final CBR MRSG k espesor) ∨
     (∃ err, main env = Leyendo archivo_entrada :: cuerpo ++ main_except err)).
Proof.
  assert (∀ err, main_try env = raise err →
    ∃ cuerpo, Forall (λ l, es_linea_de_etapa l = true) cuerpo ∧
      ((∃ CBR MRSG k espesor,
          main env = Leyendo archivo_entrada :: cuerpo
                       ++ informe_final CBR MRSG k espesor) ∨
       (∃ err, main env = Leyendo archivo_entrada :: cuerpo ++ main_except err)))
    as Hraise.
  { intros err H. exists []. split; [constructor|]. right. exists err.
    apply main_raise, H. }
  destruct (archivos env !! archivo_entrada) as [[|datos]|] eqn:Hf.
  - apply (Hraise ValueError). unfold main_try, leer_datos_entrada.
    rewrite Hf. reflexivity.
  - destruct (campo_cases datos "Traffic" "ESALs") as [[v1 H1]|H1].
    2:{ destruct H1 as [[k H1]|H1]; eapply Hraise; unfold main_try;
        rewrite (leer_datos_entrada_json _ _ Hf), bind_ret, H1; reflexivity. }
    destruct (campo_cases datos "Concrete" "FlexuralStrength") as [[v2 H2]|H2].
    2:{ destruct H2 as [[k H2]|H2]; eapply Hraise; unfold main_try;
        rewrite (leer_datos_entrada_json _ _ Hf), bind_ret, H1, bind_ret, H2;
        reflexivity. }
    destruct (campo_cases datos "Concrete" "ModulusOfElasticity")
      as [[v3 H3]|H3].
    2:{ destruct H3 as [[k H3]|H3]; eapply Hraise; unfold main_try;
        rewrite (leer_datos_entrada_json _ _ Hf), bind_ret, H1, bind_ret, H2,
          bind_ret, H3; reflexivity. }
    destruct (campo_cases datos "Subgrade" "CBR") as [[v4 H4]|H4].
    2:{ destruct H4 as [[k H4]|H4]; eapply Hraise; unfold main_try;
        rewrite (leer_datos_entrada_json _ _ Hf), bind_ret, H1, bind_ret, H2,
          bind_ret, H3, bind_ret, H4; reflexivity. }
    destruct (campo_cases datos "Structure" "ResilientModulus") as [[v5 H5]|H5].
    2:{ destruct H5 as [[k H5]|H5]; eapply Hraise; unfold main_try;
        rewrite (leer_datos_entrada_json _ _ Hf), bind_ret, H1, bind_ret, H2,
          bind_ret, H3, bind_ret, H4, bind_ret, H5; reflexivity. }
    destruct (campo_cases datos "Structure" "LayerThickness") as [[v6 H6]|H6].
    2:{ destruct H6 as [[k H6]|H6]; eapply Hraise; unfold main_try;
        rewrite (leer_datos_entrada_json _ _ Hf), bind_ret, H1, bind_ret, H2,
          bind_ret, H3, bind_ret, H4, bind_ret, H5, bind_ret, H6; reflexivity. }
    assert (entrada datos v1 v2 v3 v4 v5 v6) as Hin by (split; assumption).
    unfold main. rewrite (main_try_entrada _ _ _ _ _ _ _ _ Hf Hin).
    destruct (etapas_outcome v1 v2 v3 v4 v5 v6)
      as (cuerpo & Hc & [(m & k & es & ->) | (err & ->)]);
      exists cuerpo; (split; [exact Hc|]).
    + left. exists v4, m, k, es. reflexivity.
    + right. exists err. reflexivity.
  - apply (Hraise (FileNotFoundError archivo_entrada (cwd env))).
    unfold main_try, leer_datos_entrada. rewrite Hf. reflexivity.
Qed.

(** ** Failures inside the calculators *)


















